(** * CosmoFlow: tracers, survey mixing and cosmological distances

    A shallow embedding of [cosmoflow/tracers.py], [cosmoflow/survey.py] and
    [cosmoflow/cosmology.py].

    Number model.  Python and NumPy double-precision values are idealised:
    a finite value is a real number (rounding and overflow are not
    modelled, nor is the sign of zero), and the three special values of
    IEEE 754 arithmetic are kept, because NumPy returns them where
    Python's [math] module would raise. *)

From Stdlib Require Import Reals Lra Lia ZArith List.
From stdpp Require Import gmap strings list.

(** ** NumPy scalars *)

Module Numpy.

Local Open Scope R_scope.

Inductive npfloat : Type :=
  | Fin (r : R)
  | PInf
  | NInf
  | NaN.

Definition np_neg (x : npfloat) : npfloat :=
  match x with
  | Fin r => Fin (- r)
  | PInf => NInf
  | NInf => PInf
  | NaN => NaN
  end.

Definition np_add (x y : npfloat) : npfloat :=
  match x, y with
  | NaN, _ | _, NaN => NaN
  | Fin a, Fin b => Fin (a + b)
  | PInf, NInf | NInf, PInf => NaN
  | PInf, _ | _, PInf => PInf
  | NInf, _ | _, NInf => NInf
  end.

Definition np_sub (x y : npfloat) : npfloat := np_add x (np_neg y).

(** The infinity of the sign of [r]; [0 * inf] is NaN. *)
Definition signed_inf (r : R) (pos : bool) : npfloat :=
  if Rlt_dec 0 r then (if pos then PInf else NInf)
  else if Rlt_dec r 0 then (if pos then NInf else PInf)
  else NaN.

Definition np_mul (x y : npfloat) : npfloat :=
  match x, y with
  | NaN, _ | _, NaN => NaN
  | Fin a, Fin b => Fin (a * b)
  | Fin a, PInf | PInf, Fin a => signed_inf a true
  | Fin a, NInf | NInf, Fin a => signed_inf a false
  | PInf, PInf | NInf, NInf => PInf
  | PInf, NInf | NInf, PInf => NInf
  end.

(** NumPy division: a zero divisor gives an infinity or NaN (with a
    warning), never an exception. *)
Definition np_div (x y : npfloat) : npfloat :=
  match x, y with
  | NaN, _ | _, NaN => NaN
  | Fin a, Fin b =>
      if Req_dec_T b 0 then signed_inf a true else Fin (a / b)
  | Fin _, PInf | Fin _, NInf => Fin 0
  | PInf, Fin b => if Rlt_dec b 0 then NInf else PInf
  | NInf, Fin b => if Rlt_dec b 0 then PInf else NInf
  | _, _ => NaN
  end.

(** [np.sqrt] *)
Definition np_sqrt (x : npfloat) : npfloat :=
  match x with
  | Fin r => if Rlt_dec r 0 then NaN else Fin (sqrt r)
  | PInf => PInf
  | NInf | NaN => NaN
  end.

(** [np.exp] *)
Definition np_exp (x : npfloat) : npfloat :=
  match x with
  | Fin r => Fin (exp r)
  | PInf => PInf
  | NInf => Fin 0
  | NaN => NaN
  end.

(** [np.log10]: minus infinity at zero and NaN below it; NumPy warns and
    returns, it does not raise. *)
Definition np_log10 (x : npfloat) : npfloat :=
  match x with
  | Fin r =>
      if Rlt_dec 0 r then Fin (ln r / ln 10)
      else if Rlt_dec r 0 then NaN
      else NInf
  | PInf => PInf
  | NInf | NaN => NaN
  end.

(** Whether a real is an integer, and whether that integer is odd. *)
Definition is_integer (y : R) : bool :=
  if Req_dec_T (IZR (Int_part y)) y then true else false.

Definition is_odd_integer (y : R) : bool :=
  is_integer y && Z.odd (Int_part y).

(** [x ** y] with a finite exponent, after C's [pow]. *)
Definition np_power (x : npfloat) (y : R) : npfloat :=
  if Req_dec_T y 0 then Fin 1 else
  match x with
  | NaN => NaN
  | PInf => if Rlt_dec y 0 then Fin 0 else PInf
  | NInf =>
      if Rlt_dec y 0 then Fin 0
      else if is_odd_integer y then NInf else PInf
  | Fin r =>
      if Rlt_dec 0 r then Fin (Rpower r y)
      else if Req_dec_T r 0 then (if Rlt_dec y 0 then PInf else Fin 0)
      else if is_integer y then
        Fin (if is_odd_integer y then - Rpower (- r) y else Rpower (- r) y)
      else NaN
  end.

(** [x < y] on scalars: every comparison with NaN is false. *)
Definition np_lt (x y : npfloat) : bool :=
  match x, y with
  | NaN, _ | _, NaN => false
  | Fin a, Fin b => if Rlt_dec a b then true else false
  | NInf, NInf | PInf, _ => false
  | NInf, _ | _, PInf => true
  | Fin _, NInf => false
  end.

(** *** The error function of [scipy.special]

    [erf x = 2 / sqrt pi * integral from 0 to x of exp (- t^2)]. *)

Definition gauss (t : R) : R := exp (- (t * t)).

Lemma gauss_continuity : continuity gauss.
Proof. unfold gauss. reg. Qed.

Lemma gauss_integrable (a b : R) : Riemann_integrable gauss a b.
Proof.
  destruct (Rle_dec a b) as [Hab | Hba].
  - apply continuity_implies_RiemannInt; [exact Hab |].
    intros x _. apply gauss_continuity.
  - apply RiemannInt_P1, continuity_implies_RiemannInt; [lra |].
    intros x _. apply gauss_continuity.
Qed.

Definition erf_R (x : R) : R :=
  2 / sqrt PI * RiemannInt (gauss_integrable 0 x).

Definition erf (x : npfloat) : npfloat :=
  match x with
  | Fin r => Fin (erf_R r)
  | PInf => Fin 1
  | NInf => Fin (-1)
  | NaN => NaN
  end.

End Numpy.

(** ** Python objects, exceptions and results *)

Module Python.

Import Numpy.

Inductive exn : Type :=
  | AttributeError (name : string)
  | TypeError
  | ValueError
  | ZeroDivisionError.

(** What running a piece of code gives: a value, an exception, or no
    answer within the loop iterations allowed. *)
Inductive outcome (A : Type) : Type :=
  | Returns (a : A)
  | Raises (e : exn)
  | OutOfFuel.

Arguments Returns {A} a.
Arguments Raises {A} e.
Arguments OutOfFuel {A}.

#[global] Instance outcome_ret : MRet outcome := fun A a => Returns a.

#[global] Instance outcome_bind : MBind outcome := fun A B k m =>
  match m with
  | Returns a => k a
  | Raises e => Raises e
  | OutOfFuel => OutOfFuel
  end.

Fixpoint mapM {A B : Type} (f : A -> outcome B) (l : list A) : outcome (list B) :=
  match l with
  | [] => Returns []
  | a :: l' => b ← f a; bs ← mapM f l'; Returns (b :: bs)
  end.

(** Attribute values: a Python float, a fitted interpolant (callable on a
    scalar), or a method of the class bound to the instance. *)
Inductive pyval : Type :=
  | VFloat (r : R)
  | VInterp (f : npfloat -> npfloat)
  | VBound (name : string).

(** [self.name]: the instance dictionary first, then the names the class
    (and its bases) define; otherwise AttributeError. *)
Definition getattr (namespace : list string) (self : gmap string pyval)
    (name : string) : outcome pyval :=
  match self !! name with
  | Some v => Returns v
  | None =>
      if bool_decide (name ∈ namespace) then Returns (VBound name)
      else Raises (AttributeError name)
  end.

(** Using an attribute as a number. *)
Definition as_float (v : pyval) : outcome R :=
  match v with
  | VFloat r => Returns r
  | _ => Raises TypeError
  end.

(** [a / b] on Python floats. *)
Definition py_div (a b : R) : outcome R :=
  if Req_dec_T b 0 then Raises ZeroDivisionError else Returns (a / b)%R.

(** [l[:n]] *)
Definition slice_to {A : Type} (n : Z) (l : list A) : list A :=
  if (0 <=? n)%Z then firstn (Z.to_nat n) l
  else firstn (Z.to_nat (Z.of_nat (length l) + n)) l.

(** [a[mask]] for a boolean mask of the same length. *)
Fixpoint mask_select {A : Type} (a : list A) (mask : list bool) : list A :=
  match a, mask with
  | x :: a', b :: mask' =>
      if b then x :: mask_select a' mask' else mask_select a' mask'
  | _, _ => []
  end.

End Python.

(** ** The process-wide generator of [numpy.random]

    The generator is an external collaborator: a state from which a unit
    variate in [[0, 1)] or an integer in [[low, high)] is drawn, giving the
    next state.  Calls that read the ambient generator thread this state. *)

Module Random.

Import Numpy Python.

Class RandomState (G : Type) : Type := {
  random_sample : G -> R * G;
  randint_draw : Z -> Z -> G -> Z * G;
  random_sample_range : forall g, (0 <= (random_sample g).1 < 1)%R;
  randint_draw_range : forall low high g,
    (low < high)%Z -> (low <= (randint_draw low high g).1 < high)%Z
}.

Section Generators.

Context {G : Type} `{RandomState G}.

Fixpoint draw_uniform (low high : R) (k : nat) (g : G) : list npfloat * G :=
  match k with
  | O => ([], g)
  | S k' =>
      let '(u, g1) := random_sample g in
      let '(rest, g2) := draw_uniform low high k' g1 in
      (Fin (low + (high - low) * u) :: rest, g2)
  end.

(** [np.random.uniform(low, high, size=size)] *)
Definition uniform (low high : R) (size : Z) (g : G) : outcome (list npfloat * G) :=
  if (size <? 0)%Z then Raises ValueError
  else Returns (draw_uniform low high (Z.to_nat size) g).

(** [np.random.randint(low, high)] *)
Definition randint (low high : Z) (g : G) : outcome (Z * G) :=
  if (high <=? low)%Z then Raises ValueError
  else Returns (randint_draw low high g).

End Generators.

End Random.

(** ** [tracers.py]

    The density functions, the constructors and [sample_redshifts].  The
    placeholder samplers of the base class (magnitudes, colours,
    velocities, halo masses) are in [Placeholders] below. *)

Module Tracers.

Import Numpy Python Random.
Local Open Scope R_scope.

(** The four subclasses of [Tracer]. *)
Inductive variant : Type := LRG | ELG | QSO | BGS.

Record tracer : Type := { class_of : variant; attrs : gmap string pyval }.

(** Names defined by the base class [Tracer]. *)
Definition Tracer_namespace : list string :=
  ["n_of_z"; "n_of_L"; "sample_redshifts"; "sample_absolute_magnitudes";
   "sample_colors"; "sample_peculiar_velocity"; "sample_halo_mass"]%string.

(** Each subclass defines [__init__] and [n_of_z] and inherits the rest. *)
Definition namespace (v : variant) : list string :=
  ("__init__" :: "n_of_z" :: Tracer_namespace)%string.

Definition attr (self : tracer) (name : string) : outcome pyval :=
  getattr (namespace (class_of self)) (attrs self) name.

Definition attr_float (self : tracer) (name : string) : outcome R :=
  v ← attr self name; as_float v.

Definition setattr (self : tracer) (name : string) (v : pyval) : tracer :=
  {| class_of := class_of self; attrs := <[name := v]> (attrs self) |}.

Definition LRG_init : outcome tracer :=
  let self := {| class_of := LRG; attrs := ∅ |} in
  let self := setattr self "z_min" (VFloat 0.4) in
  let self := setattr self "z_max" (VFloat 1.0) in
  let self := setattr self "sigma" (VFloat 0.1) in
  z_max ← attr_float self "z_max";
  z_min ← attr_float self "z_min";
  norm ← py_div 1.0 (z_max - z_min);
  Returns (setattr self "norm" (VFloat norm)).

Definition ELG_init : outcome tracer :=
  let self := {| class_of := ELG; attrs := ∅ |} in
  let self := setattr self "alpha" (VFloat 2.0) in
  let self := setattr self "beta" (VFloat 1.5) in
  let self := setattr self "z0" (VFloat 0.8) in
  let self := setattr self "max_prob_estimate" (VFloat 1.0) in
  Returns self.

Definition QSO_init : outcome tracer :=
  let self := {| class_of := QSO; attrs := ∅ |} in
  let self := setattr self "z_star" (VFloat 2.0) in
  Returns self.

Definition BGS_init : outcome tracer :=
  let self := {| class_of := BGS; attrs := ∅ |} in
  let self := setattr self "alpha" (VFloat 2.0) in
  let self := setattr self "beta" (VFloat 1.5) in
  let self := setattr self "z0" (VFloat 0.2) in
  let self := setattr self "max_prob_estimate" (VFloat 1.0) in
  Returns self.

(** [LRG()], [ELG()], [QSO()], [BGS()] *)
Definition new (v : variant) : outcome tracer :=
  match v with
  | LRG => LRG_init
  | ELG => ELG_init
  | QSO => QSO_init
  | BGS => BGS_init
  end.

(** [0.5 * (erf((z - self.z_min) / np.sqrt(2) * self.sigma)
            - erf((z - self.z_max) / np.sqrt(2) * self.sigma))]:
    division and multiplication associate to the left. *)
Definition LRG_n_of_z (self : tracer) (z : npfloat) : outcome npfloat :=
  z_min ← attr_float self "z_min";
  sigma1 ← attr_float self "sigma";
  z_max ← attr_float self "z_max";
  sigma2 ← attr_float self "sigma";
  Returns
    (np_mul (Fin 0.5)
       (np_sub
          (erf (np_mul (np_div (np_sub z (Fin z_min)) (np_sqrt (Fin 2))) (Fin sigma1)))
          (erf (np_mul (np_div (np_sub z (Fin z_max)) (np_sqrt (Fin 2))) (Fin sigma2))))).

(** [z ** self.alpha * np.exp(-(z / self.z0) ** self.beta)]: the power
    binds tighter than the unary minus. *)
Definition Schechter_n_of_z (self : tracer) (z : npfloat) : outcome npfloat :=
  alpha ← attr_float self "alpha";
  z0 ← attr_float self "z0";
  beta ← attr_float self "beta";
  Returns
    (np_mul (np_power z alpha)
       (np_exp (np_neg (np_power (np_div z (Fin z0)) beta)))).

Definition ELG_n_of_z := Schechter_n_of_z.
Definition BGS_n_of_z := Schechter_n_of_z.

(** [z ** 2 * np.exp(-z / self.z_star)] *)
Definition QSO_n_of_z (self : tracer) (z : npfloat) : outcome npfloat :=
  z_star ← attr_float self "z_star";
  Returns
    (np_mul (np_power z 2) (np_exp (np_div (np_neg z) (Fin z_star)))).

(** [self.n_of_z(z)]: every subclass overrides the base method. *)
Definition n_of_z (self : tracer) (z : npfloat) : outcome npfloat :=
  match class_of self with
  | LRG => LRG_n_of_z self z
  | ELG => ELG_n_of_z self z
  | QSO => QSO_n_of_z self z
  | BGS => BGS_n_of_z self z
  end.

Section Sampling.

Context {G : Type} `{RandomState G}.

(** The [while len(samples) < n] loop of [sample_redshifts]; [fuel] bounds
    the number of batches. *)
Fixpoint sample_loop (fuel : nat) (self : tracer) (n : Z)
    (max_prob_estimate : pyval) (samples : list npfloat) (g : G)
    : outcome (list npfloat * G) :=
  if (Z.of_nat (length samples) <? n)%Z then
    match fuel with
    | O => OutOfFuel
    | S fuel' =>
        let batch_size := ((n - Z.of_nat (length samples)) * 3)%Z in
        '(z_proposal, g) ← uniform 0.0 5.0 batch_size g;
        high ← as_float max_prob_estimate;
        '(prob_proposal, g) ← uniform 0 high batch_size g;
        density ← mapM (n_of_z self) z_proposal;
        let accepted := zip_with np_lt prob_proposal density in
        sample_loop fuel' self n max_prob_estimate
          (samples ++ mask_select z_proposal accepted) g
    end
  else Returns (samples, g).

Definition sample_redshifts (fuel : nat) (self : tracer) (n : Z) (g : G)
    : outcome (list npfloat * G) :=
  max_prob_estimate ← attr self "max_prob_estimate";
  '(samples, g) ← sample_loop fuel self n max_prob_estimate [] g;
  Returns (slice_to n samples, g).

End Sampling.

(** The formula the specification gives for LRG: the half-difference of
    two error functions centred at [z_min] and [z_max] with width [sigma]. *)
Definition LRG_n_of_z_spec (z : R) : R :=
  0.5 * (erf_R ((z - 0.4) / (sqrt 2 * 0.1)) - erf_R ((z - 1.0) / (sqrt 2 * 0.1))).

End Tracers.

(** ** [survey.py] *)

Module Survey.

Import Numpy Python Random Tracers.

Section Mixing.

Context {G : Type} `{RandomState G}.

(** [if count > 0: redshifts.extend(tracer.sample_redshifts(count))] *)
Definition extend_if_positive (fuel : nat) (self : tracer) (count : Z)
    (redshifts : list npfloat) (g : G) : outcome (list npfloat * G) :=
  if (0 <? count)%Z then
    '(samples, g) ← sample_redshifts fuel self count g;
    Returns (redshifts ++ samples, g)
  else Returns (redshifts, g).

Definition generate_redshifts (fuel : nat) (n : Z) (g : G)
    : outcome (list npfloat * G) :=
  '(edge_1, g) ← randint 0 (n + 1) g;
  '(edge_2, g) ← randint 0 (n + 1) g;
  '(edge_3, g) ← randint 0 (n + 1) g;
  let n_lrg := edge_1 in
  let n_elg := (edge_2 - edge_1)%Z in
  let n_qso := (edge_3 - edge_2)%Z in
  let n_bgs := (n - edge_3)%Z in
  lrg_tracer ← new LRG;
  elg_tracer ← new ELG;
  qso_tracer ← new QSO;
  bgs_tracer ← new BGS;
  let redshifts := [] in
  '(redshifts, g) ← extend_if_positive fuel lrg_tracer n_lrg redshifts g;
  '(redshifts, g) ← extend_if_positive fuel elg_tracer n_elg redshifts g;
  '(redshifts, g) ← extend_if_positive fuel qso_tracer n_qso redshifts g;
  '(redshifts, g) ← extend_if_positive fuel bgs_tracer n_bgs redshifts g;
  Returns (redshifts, g).

End Mixing.

End Survey.

(** ** [cosmology.py] *)

Module Cosmology.

Import Numpy Python.
Local Open Scope R_scope.

(** Names defined in the body of [class Cosmology]. *)
Definition Cosmology_namespace : list string :=
  ["__init__"; "E"; "_builds_lookups"; "comoving_distance";
   "luminosity_distance"; "distance_modulus"]%string.

Definition attr (self : gmap string pyval) (name : string) : outcome pyval :=
  getattr Cosmology_namespace self name.

Definition attr_float (self : gmap string pyval) (name : string) : outcome R :=
  v ← attr self name; as_float v.

(** [np.sqrt(self.Omega_m * (1 + z) ** 3 + self.Omega_lambda)] *)
Definition E (self : gmap string pyval) (z : npfloat) : outcome npfloat :=
  Omega_m ← attr_float self "Omega_m";
  Omega_lambda ← attr_float self "Omega_lambda";
  Returns
    (np_sqrt
       (np_add (np_mul (Fin Omega_m) (np_power (np_add (Fin 1) z) 3))
          (Fin Omega_lambda))).

(** [np.linspace(start, stop, num)] *)
Definition linspace (start stop : R) (num : nat) : list npfloat :=
  map (fun i : nat => Fin (start + INR i * ((stop - start) / (INR num - 1))))
    (seq 0 num).

Section SciPy.

(** [scipy.integrate.quad(f, a, b)] gives an estimate of the integral and
    of its error; [scipy.interpolate.interp1d(x, y, kind, fill_value)]
    gives a callable.  Both are external. *)
Variable quad :
  (npfloat -> outcome npfloat) -> npfloat -> npfloat -> outcome (npfloat * npfloat).
Variable interp1d :
  list npfloat -> list npfloat -> string -> string -> npfloat -> npfloat.

(** [lambda z_prime: self.c / self.H0 / self.E(z_prime)] *)
Definition integrand (self : gmap string pyval) (z_prime : npfloat)
    : outcome npfloat :=
  c ← attr_float self "c";
  H0 ← attr_float self "H0";
  q ← py_div c H0;
  e ← E self z_prime;
  Returns (np_div (Fin q) e).

Definition _builds_lookups (self : gmap string pyval)
    : outcome (gmap string pyval) :=
  let z_vals := linspace 0 5 1000 in
  d_c_vals ←
    mapM (fun z => '(integral, _) ← quad (integrand self) (Fin 0) z;
                   Returns integral) z_vals;
  Returns
    (<["comoving_distance_lookup" :=
         VInterp (interp1d z_vals d_c_vals "cubic" "extrapolate")]> self).

(** The methods of the class that take no argument besides [self]. *)
Definition Cosmology_procedures (name : string)
    : option (gmap string pyval -> outcome (gmap string pyval)) :=
  if String.eqb name "_builds_lookups" then Some _builds_lookups else None.

(** [self.name()] *)
Definition call_method (self : gmap string pyval) (name : string)
    : outcome (gmap string pyval) :=
  m ← attr self name;
  match m with
  | VBound name' =>
      match Cosmology_procedures name' with
      | Some body => body self
      | None => Raises TypeError
      end
  | _ => Raises TypeError
  end.

(** [Cosmology()] *)
Definition Cosmology_init : outcome (gmap string pyval) :=
  let self : gmap string pyval := ∅ in
  let self := <["h" := VFloat 0.6737]> self in
  h ← attr_float self "h";
  let self := <["H0" := VFloat (100 * h)]> self in
  let self := <["Omega_m" := VFloat 0.3147]> self in
  let self := <["Omega_lambda" := VFloat 0.6853]> self in
  let self := <["c" := VFloat 299792.458]> self in
  call_method self "_build_lookups".

End SciPy.

(** [self.comoving_distance_lookup(z)] *)
Definition comoving_distance (self : gmap string pyval) (z : npfloat)
    : outcome npfloat :=
  lookup ← attr self "comoving_distance_lookup";
  match lookup with
  | VInterp f => Returns (f z)
  | _ => Raises TypeError
  end.

(** [(1 + z) * self.comoving_distance(z)] *)
Definition luminosity_distance (self : gmap string pyval) (z : npfloat)
    : outcome npfloat :=
  d_C ← comoving_distance self z;
  Returns (np_mul (np_add (Fin 1) z) d_C).

(** [5 * np.log10(d_L * 1e6) - 5] *)
Definition distance_modulus (self : gmap string pyval) (z : npfloat)
    : outcome npfloat :=
  d_L ← luminosity_distance self z;
  Returns
    (np_sub (np_mul (Fin 5) (np_log10 (np_mul d_L (Fin 1e6)))) (Fin 5)).

End Cosmology.

(** * Properties *)

(** ** The error function is strictly increasing *)

Module NumpyFacts.

Import Numpy.
Local Open Scope R_scope.

Lemma two_over_sqrt_pi_pos : 0 < 2 / sqrt PI.
Proof.
  apply Rdiv_lt_0_compat; [lra |].
  apply sqrt_lt_R0, PI_RGT_0.
Qed.

Lemma erf_R_diff (x y : R) :
  erf_R y - erf_R x = 2 / sqrt PI * RiemannInt (gauss_integrable x y).
Proof.
  unfold erf_R.
  rewrite <- (RiemannInt_P26 (gauss_integrable 0 x) (gauss_integrable x y)
                (gauss_integrable 0 y)).
  ring.
Qed.

Lemma square_between (x y t : R) : x < t < y -> t * t <= x * x + y * y.
Proof.
  intros [Hx Hy].
  destruct (Rle_dec 0 t) as [Ht | Ht]; nra.
Qed.

Lemma gauss_integral_pos (x y : R) :
  x < y -> 0 < RiemannInt (gauss_integrable x y).
Proof.
  intros Hxy.
  set (m := exp (- (x * x + y * y))).
  assert (Hm : 0 < m) by apply exp_pos.
  apply Rlt_le_trans with (m * (y - x)); [nra |].
  rewrite <- (RiemannInt_P15 (RiemannInt_P14 x y m)).
  apply RiemannInt_P19; [lra |].
  intros t Ht. unfold fct_cte, gauss, m.
  destruct (Req_dec (t * t) (x * x + y * y)) as [-> | Hne]; [lra |].
  left. apply exp_increasing.
  pose proof (square_between x y t Ht). lra.
Qed.

Lemma erf_R_increasing (x y : R) : x < y -> erf_R x < erf_R y.
Proof.
  intros Hxy.
  pose proof (erf_R_diff x y) as Hd.
  pose proof (gauss_integral_pos x y Hxy) as Hp.
  pose proof two_over_sqrt_pi_pos as Hc.
  nra.
Qed.

Lemma erf_R_monotone (x y : R) : x <= y -> erf_R x <= erf_R y.
Proof.
  intros [Hlt | ->]; [left; now apply erf_R_increasing | lra].
Qed.

Lemma erf_R_0 : erf_R 0 = 0.
Proof.
  unfold erf_R. rewrite RiemannInt_P9. ring.
Qed.

End NumpyFacts.

(** ** The density functions *)

Module TracerFacts.

Import Numpy Python Random Tracers NumpyFacts.
Local Open Scope R_scope.

#[local] Arguments np_add : simpl never.
#[local] Arguments np_sub : simpl never.
#[local] Arguments np_neg : simpl never.
#[local] Arguments np_mul : simpl never.
#[local] Arguments np_div : simpl never.
#[local] Arguments np_sqrt : simpl never.
#[local] Arguments np_exp : simpl never.
#[local] Arguments np_power : simpl never.
#[local] Arguments np_lt : simpl never.
#[local] Arguments erf : simpl never.

(** Reads of instance attributes on a concrete dictionary. *)
Ltac eval_attrs :=
  unfold attr_float, attr, getattr, setattr; cbn [attrs class_of];
  simplify_map_eq; cbn [mbind outcome_bind as_float].

(** *** What the constructors build *)

Definition LRG_instance : tracer :=
  {| class_of := LRG;
     attrs := <["norm" := VFloat (1.0 / (1.0 - 0.4))]>
                (<["sigma" := VFloat 0.1]>
                   (<["z_max" := VFloat 1.0]> (<["z_min" := VFloat 0.4]> ∅))) |}.

Definition Schechter_attrs (z0 : R) : gmap string pyval :=
  <["max_prob_estimate" := VFloat 1.0]>
    (<["z0" := VFloat z0]>
       (<["beta" := VFloat 1.5]> (<["alpha" := VFloat 2.0]> ∅))).

Definition ELG_instance : tracer :=
  {| class_of := ELG; attrs := Schechter_attrs 0.8 |}.

Definition QSO_instance : tracer :=
  {| class_of := QSO; attrs := <["z_star" := VFloat 2.0]> ∅ |}.

Definition BGS_instance : tracer :=
  {| class_of := BGS; attrs := Schechter_attrs 0.2 |}.

Definition instance_of (v : variant) : tracer :=
  match v with
  | LRG => LRG_instance
  | ELG => ELG_instance
  | QSO => QSO_instance
  | BGS => BGS_instance
  end.

Lemma new_LRG : new LRG = Returns LRG_instance.
Proof.
  unfold new, LRG_init. eval_attrs. unfold py_div.
  destruct (Req_dec_T (1.0 - 0.4) 0) as [H0 | _]; [lra | reflexivity].
Qed.

Lemma new_instance_of (v : variant) : new v = Returns (instance_of v).
Proof. destruct v; [apply new_LRG | reflexivity ..]. Qed.

Lemma new_inv (v : variant) (self : tracer) :
  new v = Returns self -> self = instance_of v.
Proof. rewrite new_instance_of. congruence. Qed.

(** *** Arithmetic on finite values *)

Lemma sqrt_2_pos : 0 < sqrt 2.
Proof. apply sqrt_lt_R0; lra. Qed.

Lemma np_sqrt_2 : np_sqrt (Fin 2) = Fin (sqrt 2).
Proof. unfold np_sqrt. destruct (Rlt_dec 2 0); [lra | reflexivity]. Qed.

Lemma np_div_fin (a b : R) : b <> 0 -> np_div (Fin a) (Fin b) = Fin (a / b).
Proof.
  intros Hb. unfold np_div.
  destruct (Req_dec_T b 0); [contradiction | reflexivity].
Qed.

(** The power of a non-negative base to a positive exponent. *)
Definition rpow (x y : R) : R := if Rlt_dec 0 x then Rpower x y else 0.

Lemma np_power_nonneg (x y : R) :
  0 <= x -> 0 < y -> np_power (Fin x) y = Fin (rpow x y).
Proof.
  intros Hx Hy. unfold np_power, rpow.
  destruct (Req_dec_T y 0); [lra |].
  destruct (Rlt_dec 0 x); [reflexivity |].
  destruct (Req_dec_T x 0); [| lra].
  destruct (Rlt_dec y 0); [lra | reflexivity].
Qed.

Lemma rpow_nonneg (x y : R) : 0 <= rpow x y.
Proof.
  unfold rpow. destruct (Rlt_dec 0 x); [| lra].
  left. apply exp_pos.
Qed.

Lemma rpow_pos (x y : R) : 0 < x -> 0 < rpow x y.
Proof.
  intros Hx. unfold rpow. destruct (Rlt_dec 0 x); [apply exp_pos | lra].
Qed.

Lemma rpow_2 (x : R) : 0 <= x -> rpow x 2.0 = x * x.
Proof.
  intros Hx. unfold rpow. destruct (Rlt_dec 0 x) as [Hpos | Hn]; [| nra].
  replace 2.0 with (1 + 1) by lra.
  rewrite Rpower_plus, Rpower_1 by assumption. reflexivity.
Qed.

Lemma rpow_int_2 (x : R) : 0 <= x -> rpow x 2 = x * x.
Proof.
  intros Hx. rewrite <- rpow_2 by assumption. f_equal. lra.
Qed.

Lemma rpow_three_halves_sq (x : R) :
  0 <= x -> rpow x 1.5 * rpow x 1.5 = x * x * x.
Proof.
  intros Hx. unfold rpow. destruct (Rlt_dec 0 x) as [Hpos | Hn]; [| nra].
  rewrite <- Rpower_plus.
  replace (1.5 + 1.5) with (1 + 1 + 1) by lra.
  rewrite !Rpower_plus, Rpower_1 by assumption. reflexivity.
Qed.

(** *** The densities on finite arguments *)

Lemma LRG_n_of_z_eval (z : R) :
  n_of_z LRG_instance (Fin z) =
  Returns
    (Fin (0.5 * (erf_R ((z - 0.4) / sqrt 2 * 0.1)
                 - erf_R ((z - 1.0) / sqrt 2 * 0.1)))).
Proof.
  pose proof sqrt_2_pos.
  unfold n_of_z, LRG_n_of_z, LRG_instance. eval_attrs.
  rewrite np_sqrt_2. unfold np_sub, np_neg, np_add.
  rewrite !np_div_fin by lra. reflexivity.
Qed.

Lemma Schechter_n_of_z_eval (v : variant) (z0 z : R) :
  0 < z0 -> 0 <= z ->
  Schechter_n_of_z {| class_of := v; attrs := Schechter_attrs z0 |} (Fin z) =
  Returns (Fin (rpow z 2.0 * exp (- rpow (z / z0) 1.5))).
Proof.
  intros Hz0 Hz.
  assert (Hq : 0 <= z / z0).
  { apply Rmult_le_pos; [assumption | left; now apply Rinv_0_lt_compat]. }
  unfold Schechter_n_of_z, Schechter_attrs. eval_attrs.
  rewrite np_div_fin by lra.
  rewrite !np_power_nonneg by lra. reflexivity.
Qed.

Lemma QSO_n_of_z_eval (z : R) :
  0 <= z ->
  n_of_z QSO_instance (Fin z) = Returns (Fin (z * z * exp (- z / 2.0))).
Proof.
  intros Hz. unfold n_of_z, QSO_n_of_z, QSO_instance. eval_attrs.
  unfold np_neg. rewrite np_div_fin by lra.
  rewrite np_power_nonneg by lra. rewrite rpow_int_2 by assumption.
  reflexivity.
Qed.

(** The value of [n_of_z] on [[0, +oo)], variant by variant. *)
Definition density (v : variant) (z : R) : R :=
  match v with
  | LRG => 0.5 * (erf_R ((z - 0.4) / sqrt 2 * 0.1) - erf_R ((z - 1.0) / sqrt 2 * 0.1))
  | ELG => rpow z 2.0 * exp (- rpow (z / 0.8) 1.5)
  | QSO => z * z * exp (- z / 2.0)
  | BGS => rpow z 2.0 * exp (- rpow (z / 0.2) 1.5)
  end.

Lemma n_of_z_eval (v : variant) (z : R) :
  0 <= z -> n_of_z (instance_of v) (Fin z) = Returns (Fin (density v z)).
Proof.
  intros Hz. destruct v; cbn [instance_of density].
  - apply LRG_n_of_z_eval.
  - apply (Schechter_n_of_z_eval ELG); lra.
  - apply QSO_n_of_z_eval; assumption.
  - apply (Schechter_n_of_z_eval BGS); lra.
Qed.

Lemma density_nonneg (v : variant) (z : R) : 0 <= z -> 0 <= density v z.
Proof.
  intros Hz. destruct v; cbn [density].
  - pose proof sqrt_2_pos as Hs.
    assert (Hle : (z - 1.0) / sqrt 2 * 0.1 <= (z - 0.4) / sqrt 2 * 0.1).
    { apply Rmult_le_compat_r; [lra |].
      apply Rmult_le_compat_r; [left; now apply Rinv_0_lt_compat | lra]. }
    apply erf_R_monotone in Hle. lra.
  - apply Rmult_le_pos; [apply rpow_nonneg | left; apply exp_pos].
  - apply Rmult_le_pos; [nra | left; apply exp_pos].
  - apply Rmult_le_pos; [apply rpow_nonneg | left; apply exp_pos].
Qed.

(** *** The rejection bound of the Schechter variants *)

Lemma exp_quadratic_lower (t : R) : 0 <= t -> 1 + t + t * t / 4 <= exp t.
Proof.
  intros Ht.
  assert (Hhalf : exp t = exp (t / 2) * exp (t / 2)).
  { rewrite <- exp_plus. f_equal. lra. }
  pose proof (exp_ineq1_le (t / 2)) as Hh.
  rewrite Hhalf. nra.
Qed.

Lemma Schechter_bound (z0 z : R) :
  0 < z0 -> 0 <= z ->
  z * z <= 1 + (z / z0) * (z / z0) * (z / z0) / 4 ->
  rpow z 2.0 * exp (- rpow (z / z0) 1.5) <= 1.
Proof.
  intros Hz0 Hz Hcube.
  assert (Hq : 0 <= z / z0).
  { apply Rmult_le_pos; [assumption | left; now apply Rinv_0_lt_compat]. }
  rewrite rpow_2 by assumption.
  pose proof (rpow_nonneg (z / z0) 1.5) as Ht.
  pose proof (rpow_three_halves_sq (z / z0) Hq) as Hsq.
  set (t := rpow (z / z0) 1.5) in *.
  pose proof (exp_quadratic_lower t Ht) as Hexp.
  pose proof (exp_pos (- t)) as Hpos.
  assert (Hinv : exp t * exp (- t) = 1).
  { rewrite <- exp_plus. replace (t + - t) with 0 by lra. apply exp_0. }
  assert (Hzz : z * z <= exp t) by nra.
  rewrite <- Hinv. apply Rmult_le_compat_r; lra.
Qed.

Lemma ELG_cube (z : R) :
  0 <= z -> z * z <= 1 + (z / 0.8) * (z / 0.8) * (z / 0.8) / 4.
Proof.
  intros Hz. replace (z / 0.8) with (z * 1.25) by lra.
  pose proof (Rmult_le_pos z ((z - 1.2) * (z - 1.2)) Hz
                (Rle_0_sqr (z - 1.2))) as Hhint.
  nra.
Qed.

Lemma BGS_cube (z : R) :
  0 <= z -> z * z <= 1 + (z / 0.2) * (z / 0.2) * (z / 0.2) / 4.
Proof.
  intros Hz. replace (z / 0.2) with (z * 5) by lra.
  destruct (Rle_dec z 1) as [Hle | Hgt]; nra.
Qed.

Lemma density_le_1 (v : variant) (z : R) :
  v = ELG \/ v = BGS -> 0 <= z -> density v z <= 1.
Proof.
  intros [-> | ->] Hz; cbn [density].
  - apply Schechter_bound; [lra | assumption | now apply ELG_cube].
  - apply Schechter_bound; [lra | assumption | now apply BGS_cube].
Qed.

(** C8: for each of the four variants, [n_of_z(z)] evaluates to a finite
    value that is non-negative, for every [z] in [[0, 5]]. *)
Theorem n_of_z_nonneg (v : variant) (self : tracer) (z : R) :
  new v = Returns self ->
  0 <= z <= 5 ->
  exists d : R, n_of_z self (Fin z) = Returns (Fin d) /\ 0 <= d.
Proof.
  intros Hnew [Hz _]. apply new_inv in Hnew as ->.
  exists (density v z). split.
  - now apply n_of_z_eval.
  - now apply density_nonneg.
Qed.

Lemma n_of_z_nonneg_witness :
  new LRG = Returns LRG_instance /\ 0 <= 0.7 <= 5 /\
  exists d : R, n_of_z LRG_instance (Fin 0.7) = Returns (Fin d) /\ 0 <= d.
Proof.
  split; [apply new_LRG |]. split; [lra |].
  apply (n_of_z_nonneg LRG LRG_instance 0.7); [apply new_LRG | lra].
Defined.

(** C7: for ELG and BGS, the attribute [max_prob_estimate] is [1.0] and
    is at least [n_of_z(z)] for every [z] in [[0, 5]]. *)
Theorem max_prob_estimate_bounds_n_of_z (v : variant) (self : tracer) (z : R) :
  v = ELG \/ v = BGS ->
  new v = Returns self ->
  0 <= z <= 5 ->
  exists d m : R,
    n_of_z self (Fin z) = Returns (Fin d) /\
    attr_float self "max_prob_estimate" = Returns m /\
    m = 1.0 /\ d <= m.
Proof.
  intros Hv Hnew [Hz _]. apply new_inv in Hnew as ->.
  exists (density v z), 1.0. split; [now apply n_of_z_eval |].
  split; [destruct Hv as [-> | ->]; reflexivity |].
  split; [reflexivity |].
  pose proof (density_le_1 v z Hv Hz). lra.
Qed.

Lemma max_prob_estimate_bounds_n_of_z_witness :
  new ELG = Returns ELG_instance /\ 0 <= 1 <= 5 /\
  exists d m : R,
    n_of_z ELG_instance (Fin 1) = Returns (Fin d) /\
    attr_float ELG_instance "max_prob_estimate" = Returns m /\
    m = 1.0 /\ d <= m.
Proof.
  split; [reflexivity |]. split; [lra |].
  apply (max_prob_estimate_bounds_n_of_z ELG ELG_instance 1);
    [left; reflexivity | reflexivity | lra].
Defined.

(** C4: at [z = 0.7], the middle of the interval between [z_min] and
    [z_max], [LRG.n_of_z] returns a value strictly below the
    half-difference of error functions of width [sigma]: the code
    multiplies by [sigma] where the formula divides by it. *)
Theorem LRG_n_of_z_below_spec_formula :
  exists d : R,
    (self ← new LRG; n_of_z self (Fin 0.7)) = Returns (Fin d) /\
    d < LRG_n_of_z_spec 0.7.
Proof.
  eexists. split.
  - rewrite new_LRG. cbn [mbind outcome_bind]. apply LRG_n_of_z_eval.
  - unfold LRG_n_of_z_spec.
    pose proof sqrt_2_pos as Hs.
    assert (Hi : 0 < / sqrt 2) by now apply Rinv_0_lt_compat.
    assert (H1 : (0.7 - 0.4) / sqrt 2 * 0.1 < (0.7 - 0.4) / (sqrt 2 * 0.1)).
    { unfold Rdiv. rewrite Rinv_mult. nra. }
    assert (H2 : (0.7 - 1.0) / (sqrt 2 * 0.1) < (0.7 - 1.0) / sqrt 2 * 0.1).
    { unfold Rdiv. rewrite Rinv_mult. nra. }
    apply erf_R_increasing in H1, H2. lra.
Qed.

End TracerFacts.

(** ** Rejection sampling *)

Module SamplingFacts.

Import Numpy Python Random Tracers NumpyFacts TracerFacts.
Local Open Scope R_scope.

(** A finite value inside the sampling domain. *)
Definition in_domain (x : npfloat) : Prop :=
  exists r : R, x = Fin r /\ 0 <= r <= 5.

Lemma slice_to_nil {A : Type} (n : Z) : slice_to n (@nil A) = [].
Proof. unfold slice_to. destruct (0 <=? n)%Z; apply firstn_nil. Qed.

Lemma slice_to_length {A : Type} (n : Z) (l : list A) :
  (0 <= n <= Z.of_nat (length l))%Z ->
  Z.of_nat (length (slice_to n l)) = n.
Proof.
  intros [H0 Hn]. unfold slice_to.
  destruct (Z.leb_spec 0 n) as [_ | Hneg]; [| lia].
  rewrite length_firstn. lia.
Qed.

Lemma slice_to_Forall {A : Type} (P : A -> Prop) (n : Z) (l : list A) :
  Forall P l -> Forall P (slice_to n l).
Proof.
  intros Hl. unfold slice_to. destruct (0 <=? n)%Z; now apply Forall_take.
Qed.

Lemma mask_select_Forall {A : Type} (P : A -> Prop) (a : list A)
    (mask : list bool) :
  Forall P a -> Forall P (mask_select a mask).
Proof.
  intros Ha. revert mask.
  induction Ha as [| x a Hx Ha IH]; intros [| b mask]; cbn;
    try constructor.
  destruct b; [constructor; [assumption | apply IH] | apply IH].
Qed.

Section AnyGenerator.

Context {G : Type} `{RandomState G}.

Lemma draw_uniform_length (low high : R) (k : nat) (g : G) :
  length (draw_uniform low high k g).1 = k.
Proof.
  revert g. induction k as [| k IH]; intros g; cbn; [reflexivity |].
  destruct (random_sample g) as [u g1].
  specialize (IH g1). destruct (draw_uniform low high k g1) as [rest g2].
  cbn in *. now rewrite IH.
Qed.

Lemma draw_uniform_range (low high : R) (k : nat) (g : G) :
  low <= high ->
  Forall (fun x => exists r : R, x = Fin r /\ low <= r <= high)
    (draw_uniform low high k g).1.
Proof.
  intros Hlh. revert g. induction k as [| k IH]; intros g; cbn;
    [constructor |].
  pose proof (random_sample_range g) as Hu.
  destruct (random_sample g) as [u g1]. cbn in Hu.
  specialize (IH g1). destruct (draw_uniform low high k g1) as [rest g2].
  cbn in *. constructor; [| exact IH].
  eexists. split; [reflexivity | nra].
Qed.

Lemma sample_loop_done (fuel : nat) (self : tracer) (n : Z) (m : pyval)
    (samples : list npfloat) (g : G) :
  (n <= Z.of_nat (length samples))%Z ->
  sample_loop fuel self n m samples g = Returns (samples, g).
Proof.
  intros Hn. destruct fuel; cbn [sample_loop];
    (destruct (Z.ltb_spec (Z.of_nat (length samples)) n); [lia | reflexivity]).
Qed.

(** When the loop returns, the accumulator holds at least [n] values, all
    of them proposals drawn from [[0, 5]]. *)
Lemma sample_loop_returns (fuel : nat) (self : tracer) (n : Z) (m : pyval)
    (samples res : list npfloat) (g g' : G) :
  Forall in_domain samples ->
  sample_loop fuel self n m samples g = Returns (res, g') ->
  Forall in_domain res /\ (n <= Z.of_nat (length res))%Z.
Proof.
  revert samples g.
  induction fuel as [| fuel IH]; intros samples g Hdom; cbn [sample_loop];
    destruct (Z.ltb_spec (Z.of_nat (length samples)) n) as [Hlt | Hge];
    try discriminate;
    try (intros [= <- <-]; split; [assumption | lia]).
  unfold uniform.
  set (batch_size := ((n - Z.of_nat (length samples)) * 3)%Z).
  destruct (batch_size <? 0)%Z; [discriminate |].
  cbn [mbind outcome_bind].
  pose proof (draw_uniform_range 0.0 5.0 (Z.to_nat batch_size) g) as Hz.
  destruct (draw_uniform 0.0 5.0 (Z.to_nat batch_size) g) as [z_proposal g1].
  cbn [fst] in Hz.
  destruct (as_float m) as [high | |]; try discriminate.
  cbn [mbind outcome_bind].
  destruct (draw_uniform 0 high (Z.to_nat batch_size) g1)
    as [prob_proposal g2].
  destruct (mapM (n_of_z self) z_proposal) as [dens | |]; try discriminate.
  cbn [mbind outcome_bind].
  apply IH. apply Forall_app. split; [assumption |].
  apply mask_select_Forall.
  eapply Forall_impl; [apply Hz; lra |].
  intros x (r & -> & Hr). exists r. split; [reflexivity | lra].
Qed.

Lemma sample_redshifts_returns (fuel : nat) (self : tracer) (n : Z)
    (res : list npfloat) (g g' : G) :
  (0 <= n)%Z ->
  sample_redshifts fuel self n g = Returns (res, g') ->
  Z.of_nat (length res) = n /\ Forall in_domain res.
Proof.
  intros Hn. unfold sample_redshifts.
  destruct (attr self "max_prob_estimate") as [m | |]; try discriminate.
  cbn [mbind outcome_bind].
  destruct (sample_loop fuel self n m [] g) as [[samples g1] | |] eqn:Hloop;
    try discriminate.
  cbn [mbind outcome_bind]. intros [= <- <-].
  apply sample_loop_returns in Hloop as [Hdom Hlen]; [| constructor].
  split; [apply slice_to_length; lia | now apply slice_to_Forall].
Qed.

End AnyGenerator.

Lemma np_lt_fin (a b : R) : a < b -> np_lt (Fin a) (Fin b) = true.
Proof.
  intros Hab. unfold np_lt.
  destruct (Rlt_dec a b); [reflexivity | contradiction].
Qed.

Lemma density_pos_at_1 (v : variant) : v = ELG \/ v = BGS -> 0 < density v 1.
Proof.
  intros [-> | ->]; cbn [density];
    (apply Rmult_lt_0_compat; [apply rpow_pos; lra | apply exp_pos]).
Qed.

Lemma max_prob_estimate_defined (v : variant) :
  v = ELG \/ v = BGS ->
  attr (instance_of v) "max_prob_estimate" = Returns (VFloat 1.0).
Proof. intros [-> | ->]; reflexivity. Qed.

Lemma max_prob_estimate_missing (v : variant) :
  v = LRG \/ v = QSO ->
  attr (instance_of v) "max_prob_estimate" =
  Raises (AttributeError "max_prob_estimate").
Proof. intros [-> | ->]; reflexivity. Qed.

Section Runs.

Context {G : Type} `{RandomState G}.

(** A run of [sample_redshifts(1)]: the three proposals of the first
    batch are [z = 1] and the three heights are [0], so all three are
    accepted and the first one is returned. *)
Lemma sample_redshifts_one (v : variant) (g0 g1 g2 g3 g4 g5 g6 : G) :
  v = ELG \/ v = BGS ->
  random_sample g0 = (1 / 5, g1) ->
  random_sample g1 = (1 / 5, g2) ->
  random_sample g2 = (1 / 5, g3) ->
  random_sample g3 = (0, g4) ->
  random_sample g4 = (0, g5) ->
  random_sample g5 = (0, g6) ->
  sample_redshifts 1 (instance_of v) 1 g0 = Returns ([Fin 1], g6).
Proof.
  intros Hv H0 H1 H2 H3 H4 H5.
  pose proof (density_pos_at_1 v Hv) as Hpos.
  unfold sample_redshifts.
  rewrite (max_prob_estimate_defined v Hv). cbn [mbind outcome_bind].
  cbn [sample_loop]. unfold uniform.
  change (Z.of_nat (length (@nil npfloat)) <? 1)%Z with true.
  change ((1 - Z.of_nat (length (@nil npfloat))) * 3 <? 0)%Z with false.
  change (Z.to_nat ((1 - Z.of_nat (length (@nil npfloat))) * 3)) with 3%nat.
  cbn [mbind outcome_bind draw_uniform].
  rewrite H0, H1, H2. cbn [as_float mbind outcome_bind draw_uniform].
  rewrite H3, H4, H5.
  replace (0.0 + (5.0 - 0.0) * (1 / 5)) with 1 by lra.
  cbn [mapM]. rewrite n_of_z_eval by lra.
  cbn [mbind outcome_bind zip_with]. rewrite !np_lt_fin by lra.
  reflexivity.
Qed.

(** C3: on an LRG or a QSO instance, [sample_redshifts(count)] raises
    AttributeError for every integer [count], the non-negative ones
    included: neither class defines [max_prob_estimate], which the method
    reads before its loop. *)
Theorem sample_redshifts_LRG_QSO_raise (fuel : nat) (count : Z) (g : G) :
  (self ← new LRG; sample_redshifts fuel self count g) =
    Raises (AttributeError "max_prob_estimate") /\
  (self ← new QSO; sample_redshifts fuel self count g) =
    Raises (AttributeError "max_prob_estimate").
Proof.
  split; rewrite new_instance_of; cbn [mbind outcome_bind];
    unfold sample_redshifts;
    rewrite max_prob_estimate_missing by auto; reflexivity.
Qed.

(** C6: on an instance of a variant that defines [max_prob_estimate],
    whenever [sample_redshifts(n)] returns for a non-negative [n], it
    returns exactly [n] values, each a finite value within [[0, 5]]. *)
Theorem sample_redshifts_exact_count_in_domain (v : variant) (self : tracer)
    (fuel : nat) (n : Z) (g g' : G) (res : list npfloat) :
  new v = Returns self ->
  is_Some (attrs self !! "max_prob_estimate") ->
  (0 <= n)%Z ->
  sample_redshifts fuel self n g = Returns (res, g') ->
  Z.of_nat (length res) = n /\ Forall in_domain res.
Proof.
  intros _ _ Hn Hrun. exact (sample_redshifts_returns fuel self n res g g' Hn Hrun).
Qed.

(** C10: on an ELG or a BGS instance, [sample_redshifts(count)] with
    [count <= 0] returns the empty sequence: no batch is drawn (the
    generator is left as it was, and no loop iteration is needed). *)
Theorem sample_redshifts_nonpositive_count (v : variant) (self : tracer)
    (fuel : nat) (count : Z) (g : G) :
  v = ELG \/ v = BGS ->
  new v = Returns self ->
  (count <= 0)%Z ->
  sample_redshifts fuel self count g = Returns ([], g).
Proof.
  intros Hv Hnew Hcount. apply new_inv in Hnew as ->.
  unfold sample_redshifts.
  rewrite (max_prob_estimate_defined v Hv). cbn [mbind outcome_bind].
  rewrite sample_loop_done by (cbn; lia). cbn [mbind outcome_bind].
  now rewrite slice_to_nil.
Qed.

End Runs.

(** *** A scripted generator

    The state is the number of draws made so far.  Draws [3k], [3k + 1]
    and [3k + 2] give the unit variate [1/5] for odd [k] and [0] for even
    [k]; an integer draw in [[low, high)] gives [low] plus the state
    modulo the width. *)

Definition script_unit (k : nat) : R := if Nat.odd (k / 3) then 1 / 5 else 0.

Definition script_int (low high : Z) (k : nat) : Z :=
  (low + Z.of_nat k mod (high - low))%Z.

Lemma script_unit_range (k : nat) : 0 <= script_unit k < 1.
Proof. unfold script_unit. destruct (Nat.odd (k / 3)); lra. Qed.

Lemma script_int_range (low high : Z) (k : nat) :
  (low < high)%Z -> (low <= script_int low high k < high)%Z.
Proof.
  intros Hlh. unfold script_int.
  pose proof (Z.mod_pos_bound (Z.of_nat k) (high - low)). lia.
Qed.

#[export] Instance scripted : RandomState nat := {|
  random_sample k := (script_unit k, S k);
  randint_draw low high k := (script_int low high k, S k);
  random_sample_range := script_unit_range;
  randint_draw_range := script_int_range
|}.

Lemma scripted_sample_ELG :
  sample_redshifts 1 ELG_instance 1 3%nat = Returns ([Fin 1], 9%nat).
Proof.
  apply (sample_redshifts_one ELG 3%nat 4%nat 5%nat 6%nat 7%nat 8%nat 9%nat);
    [left; reflexivity | reflexivity ..].
Qed.

Lemma scripted_sample_BGS :
  sample_redshifts 1 BGS_instance 1 9%nat = Returns ([Fin 1], 15%nat).
Proof.
  apply (sample_redshifts_one BGS 9%nat 10%nat 11%nat 12%nat 13%nat 14%nat 15%nat);
    [right; reflexivity | reflexivity ..].
Qed.

Lemma sample_redshifts_exact_count_in_domain_witness :
  new ELG = Returns ELG_instance /\
  sample_redshifts 1 ELG_instance 1 3%nat = Returns ([Fin 1], 9%nat) /\
  Z.of_nat (length [Fin 1]) = 1%Z /\ Forall in_domain [Fin 1].
Proof.
  split; [reflexivity |]. split; [apply scripted_sample_ELG |].
  apply (sample_redshifts_exact_count_in_domain ELG ELG_instance 1 1 3%nat 9%nat);
    [reflexivity | eexists; reflexivity | lia | apply scripted_sample_ELG].
Defined.

Lemma sample_redshifts_nonpositive_count_witness :
  new BGS = Returns BGS_instance /\ (-2 <= 0)%Z /\
  sample_redshifts 0 BGS_instance (-2) 0%nat = Returns ([], 0%nat).
Proof.
  split; [reflexivity |]. split; [lia |].
  apply (sample_redshifts_nonpositive_count BGS BGS_instance 0 (-2) 0%nat);
    [right; reflexivity | reflexivity | lia].
Defined.

End SamplingFacts.

(** ** Mixing the four populations *)

Module SurveyFacts.

Import Numpy Python Random Tracers Survey TracerFacts SamplingFacts.

Section AnyGenerator.

Context {G : Type} `{RandomState G}.

Lemma extend_if_positive_length (fuel : nat) (self : tracer) (count : Z)
    (redshifts res : list npfloat) (g g' : G) :
  extend_if_positive fuel self count redshifts g = Returns (res, g') ->
  Z.of_nat (length res) = (Z.of_nat (length redshifts) + Z.max 0 count)%Z.
Proof.
  unfold extend_if_positive.
  destruct (Z.ltb_spec 0 count) as [Hpos | Hle].
  - destruct (sample_redshifts fuel self count g) as [[samples g1] | |] eqn:Hrun;
      try discriminate.
    cbn [mbind outcome_bind]. intros [= <- <-].
    apply sample_redshifts_returns in Hrun as [Hlen _]; [| lia].
    rewrite length_app. lia.
  - intros [= <- <-]. lia.
Qed.

(** The four sub-counts add up to [n], so leaving out the ones that are
    not positive gives a total of at least [n]. *)
Lemma generate_redshifts_at_least_n (fuel : nat) (n : Z) (g g' : G)
    (res : list npfloat) :
  generate_redshifts fuel n g = Returns (res, g') ->
  (n <= Z.of_nat (length res))%Z.
Proof.
  unfold generate_redshifts.
  destruct (randint 0 (n + 1) g) as [[edge_1 g1] | |]; try discriminate.
  cbn [mbind outcome_bind].
  destruct (randint 0 (n + 1) g1) as [[edge_2 g2] | |]; try discriminate.
  cbn [mbind outcome_bind].
  destruct (randint 0 (n + 1) g2) as [[edge_3 g3] | |]; try discriminate.
  cbn [mbind outcome_bind].
  rewrite !new_instance_of. cbn [mbind outcome_bind].
  destruct (extend_if_positive fuel (instance_of LRG) edge_1 [] g3)
    as [[r1 h1] | |] eqn:E1; try discriminate.
  cbn [mbind outcome_bind].
  destruct (extend_if_positive fuel (instance_of ELG) (edge_2 - edge_1) r1 h1)
    as [[r2 h2] | |] eqn:E2; try discriminate.
  cbn [mbind outcome_bind].
  destruct (extend_if_positive fuel (instance_of QSO) (edge_3 - edge_2) r2 h2)
    as [[r3 h3] | |] eqn:E3; try discriminate.
  cbn [mbind outcome_bind].
  destruct (extend_if_positive fuel (instance_of BGS) (n - edge_3) r3 h3)
    as [[r4 h4] | |] eqn:E4; try discriminate.
  cbn [mbind outcome_bind]. intros [= <- <-].
  apply extend_if_positive_length in E1, E2, E3, E4.
  cbn [length] in E1. lia.
Qed.

End AnyGenerator.

(** C2: [generate_redshifts(1)] with the edges drawn as [0, 1, 0] gives
    the sub-counts [0, 1, -1, 1]; the negative one is skipped and the
    other two tracers contribute one value each, so two values are
    returned where at most one was asked for. *)
Theorem generate_redshifts_exceeds_n :
  generate_redshifts 1 1 0%nat = Returns ([Fin 1; Fin 1], 15%nat) /\
  (1 < Z.of_nat (length [Fin 1; Fin 1]))%Z.
Proof.
  split; [| cbn; lia].
  unfold generate_redshifts, randint.
  change (1 + 1 <=? 0)%Z with false.
  cbn [mbind outcome_bind randint_draw scripted].
  change (script_int 0 (1 + 1) 0) with 0%Z.
  change (script_int 0 (1 + 1) 1) with 1%Z.
  change (script_int 0 (1 + 1) 2) with 0%Z.
  rewrite !new_instance_of. cbn [mbind outcome_bind].
  unfold extend_if_positive.
  change (0 <? 0)%Z with false.
  change (0 <? 1 - 0)%Z with true.
  change (0 <? 0 - 1)%Z with false.
  change (1 - 0)%Z with 1%Z.
  cbn [mbind outcome_bind].
  change (instance_of ELG) with ELG_instance.
  rewrite scripted_sample_ELG. cbn [mbind outcome_bind app].
  change (instance_of BGS) with BGS_instance.
  rewrite scripted_sample_BGS. reflexivity.
Qed.

End SurveyFacts.

(** ** Distances *)

Module CosmologyFacts.

Import Numpy Python Cosmology.
Local Open Scope R_scope.

(** C1: constructing the model raises AttributeError and builds no
    table: [__init__] calls [self._build_lookups()], while the class
    defines the method under the name [_builds_lookups]. *)
Theorem Cosmology_init_raises
    (quad : (npfloat -> outcome npfloat) -> npfloat -> npfloat ->
            outcome (npfloat * npfloat))
    (interp1d : list npfloat -> list npfloat -> string -> string ->
                npfloat -> npfloat) :
  Cosmology_init quad interp1d = Raises (AttributeError "_build_lookups").
Proof. reflexivity. Qed.

(** An instance as the constructor would leave it could it finish, with
    the small-redshift law [d = (c / H0) * z] standing in for the fitted
    interpolant. *)
Definition hubble_law_instance : gmap string pyval :=
  <["comoving_distance_lookup" :=
      VInterp (fun z => np_mul (Fin (299792.458 / 67.37)) z)]>
    (<["c" := VFloat 299792.458]>
       (<["Omega_lambda" := VFloat 0.6853]>
          (<["Omega_m" := VFloat 0.3147]>
             (<["H0" := VFloat (100 * 0.6737)]>
                (<["h" := VFloat 0.6737]> ∅))))).

Lemma comoving_distance_hubble (z : npfloat) :
  comoving_distance hubble_law_instance z =
  Returns (np_mul (Fin (299792.458 / 67.37)) z).
Proof. reflexivity. Qed.

(** C9: wherever [comoving_distance(z)] is defined,
    [luminosity_distance(z)] is [(1 + z) * comoving_distance(z)]. *)
Theorem luminosity_distance_identity (self : gmap string pyval)
    (z d_C : npfloat) :
  comoving_distance self z = Returns d_C ->
  luminosity_distance self z = Returns (np_mul (np_add (Fin 1) z) d_C).
Proof.
  intros Hd. unfold luminosity_distance. rewrite Hd. reflexivity.
Qed.

Lemma luminosity_distance_identity_witness :
  comoving_distance hubble_law_instance (Fin 1) =
    Returns (np_mul (Fin (299792.458 / 67.37)) (Fin 1)) /\
  luminosity_distance hubble_law_instance (Fin 1) =
    Returns (np_mul (np_add (Fin 1) (Fin 1))
               (np_mul (Fin (299792.458 / 67.37)) (Fin 1))).
Proof.
  split; [reflexivity |].
  apply (luminosity_distance_identity hubble_law_instance (Fin 1));
    reflexivity.
Defined.

Lemma np_log10_pos (r : R) : 0 < r -> np_log10 (Fin r) = Fin (ln r / ln 10).
Proof.
  intros Hr. unfold np_log10. destruct (Rlt_dec 0 r); [reflexivity | lra].
Qed.

Lemma np_log10_zero : np_log10 (Fin 0) = NInf.
Proof.
  unfold np_log10. destruct (Rlt_dec 0 0); [lra | reflexivity].
Qed.

Lemma np_log10_neg (r : R) : r < 0 -> np_log10 (Fin r) = NaN.
Proof.
  intros Hr. unfold np_log10. destruct (Rlt_dec 0 r); [lra |].
  destruct (Rlt_dec r 0); [reflexivity | lra].
Qed.

Lemma five_times_NInf : np_mul (Fin 5) NInf = NInf.
Proof.
  unfold np_mul, signed_inf. destruct (Rlt_dec 0 5); [reflexivity | lra].
Qed.

Lemma distance_modulus_finite (self : gmap string pyval) (z : npfloat)
    (d_L : R) :
  luminosity_distance self z = Returns (Fin d_L) ->
  distance_modulus self z =
  Returns (np_sub (np_mul (Fin 5) (np_log10 (Fin (d_L * 1e6)))) (Fin 5)).
Proof.
  intros Hd. unfold distance_modulus. rewrite Hd. reflexivity.
Qed.

Lemma distance_modulus_zero (self : gmap string pyval) (z : npfloat) :
  luminosity_distance self z = Returns (Fin 0) ->
  distance_modulus self z = Returns NInf.
Proof.
  intros Hd. rewrite (distance_modulus_finite self z 0 Hd).
  replace (0 * 1e6) with 0 by lra.
  rewrite np_log10_zero, five_times_NInf. reflexivity.
Qed.

(** C5, as the code has it: [distance_modulus(z)] never raises on a
    finite luminosity distance.  It returns
    [5 * log10(d_L * 1e6) - 5] when [d_L] is positive, minus infinity
    when [d_L] is zero and NaN when [d_L] is negative. *)
Theorem distance_modulus_by_sign (self : gmap string pyval) (z : npfloat)
    (d_L : R) :
  luminosity_distance self z = Returns (Fin d_L) ->
  (0 < d_L ->
   distance_modulus self z = Returns (Fin (5 * (ln (d_L * 1e6) / ln 10) - 5))) /\
  (d_L = 0 -> distance_modulus self z = Returns NInf) /\
  (d_L < 0 -> distance_modulus self z = Returns NaN).
Proof.
  intros Hd. repeat split.
  - intros Hpos. rewrite (distance_modulus_finite self z d_L Hd).
    rewrite np_log10_pos by lra. reflexivity.
  - intros ->. now apply distance_modulus_zero.
  - intros Hneg. rewrite (distance_modulus_finite self z d_L Hd).
    rewrite np_log10_neg by lra. reflexivity.
Qed.

Lemma distance_modulus_by_sign_witness :
  luminosity_distance hubble_law_instance (Fin 1) =
    Returns (Fin ((1 + 1) * (299792.458 / 67.37 * 1))) /\
  distance_modulus hubble_law_instance (Fin 1) =
    Returns
      (Fin (5 * (ln ((1 + 1) * (299792.458 / 67.37 * 1) * 1e6) / ln 10) - 5)).
Proof.
  split; [reflexivity |].
  apply (distance_modulus_by_sign hubble_law_instance (Fin 1)
           ((1 + 1) * (299792.458 / 67.37 * 1)));
    [reflexivity | lra].
Defined.

(** C5 as stated fails at [z = 0]: the luminosity distance is zero, and
    [distance_modulus(0)] returns minus infinity instead of raising. *)
Lemma distance_modulus_zero_does_not_raise :
  luminosity_distance hubble_law_instance (Fin 0) =
    Returns (Fin ((1 + 0) * (299792.458 / 67.37 * 0))) /\
  (1 + 0) * (299792.458 / 67.37 * 0) <= 0 /\
  distance_modulus hubble_law_instance (Fin 0) = Returns NInf /\
  ~ (exists e : exn, distance_modulus hubble_law_instance (Fin 0) = Raises e).
Proof.
  assert (Hrun : distance_modulus hubble_law_instance (Fin 0) = Returns NInf).
  { apply distance_modulus_zero.
    unfold luminosity_distance. rewrite comoving_distance_hubble.
    cbn [mbind outcome_bind np_mul np_add]. do 2 f_equal. lra. }
  split; [reflexivity |]. split; [lra |]. split; [exact Hrun |].
  intros [e He]. rewrite Hrun in He. discriminate.
Qed.

End CosmologyFacts.

(** ** The shape of the densities beyond the sampling domain *)

Module DensityShape.

Import Numpy Python Random Tracers NumpyFacts TracerFacts.
Local Open Scope R_scope.

#[local] Arguments np_add : simpl never.
#[local] Arguments np_sub : simpl never.
#[local] Arguments np_neg : simpl never.
#[local] Arguments np_mul : simpl never.
#[local] Arguments np_div : simpl never.
#[local] Arguments np_sqrt : simpl never.
#[local] Arguments np_exp : simpl never.
#[local] Arguments np_power : simpl never.
#[local] Arguments erf : simpl never.



















End DensityShape.

(** ** What rejection sampling accepts *)

Module SamplingSupport.

Import Numpy Python Random Tracers NumpyFacts TracerFacts SamplingFacts
  DensityShape.
Local Open Scope R_scope.




Section AnyGenerator.

Context {G : Type} `{RandomState G}.

(** A value of the accumulator: a proposal from [[0, 5]] whose height,
    drawn from [[0, high]], was strictly below its density. *)
Definition accepted (self : tracer) (high : R) (x : npfloat) : Prop :=
  in_domain x /\
  exists (p : R) (d : npfloat),
    0 <= p <= high /\ n_of_z self x = Returns d /\ np_lt (Fin p) d = true.



End AnyGenerator.


End SamplingSupport.

(** ** The placeholder samplers of [Tracer]

    [sample_absolute_magnitudes], [sample_colors],
    [sample_peculiar_velocity] and [sample_halo_mass] each make one call
    to the ambient generator.  The normal variates are a second external
    source: a state gives a standard normal value and the next state. *)

Module Placeholders.

Import Numpy Python Random Tracers.
Local Open Scope R_scope.

Class NormalState (G : Type) : Type := {
  standard_normal : G -> R * G
}.

Section Samplers.

Context {G : Type} `{RandomState G} `{NormalState G}.

Fixpoint draw_normal (loc scale : R) (k : nat) (g : G) : list npfloat * G :=
  match k with
  | O => ([], g)
  | S k' =>
      let '(x, g1) := standard_normal g in
      let '(rest, g2) := draw_normal loc scale k' g1 in
      (Fin (loc + scale * x) :: rest, g2)
  end.

(** [np.random.normal(loc, scale, size=size)] *)
Definition normal (loc scale : R) (size : Z) (g : G)
    : outcome (list npfloat * G) :=
  if Rlt_dec scale 0 then Raises ValueError
  else if (size <? 0)%Z then Raises ValueError
  else Returns (draw_normal loc scale (Z.to_nat size) g).

(** [10 ** x] on one element of an array. *)
Definition ten_to_the (x : npfloat) : npfloat :=
  match x with
  | Fin y => np_power (Fin 10) y
  | PInf => PInf
  | NInf => Fin 0
  | NaN => NaN
  end.

(** [np.random.uniform(-22, -18, size=n)] *)
Definition sample_absolute_magnitudes (self : tracer) (n : Z) (g : G)
    : outcome (list npfloat * G) :=
  uniform (-22) (-18) n g.

(** [np.random.uniform(0, 2, size=n)] *)
Definition sample_colors (self : tracer) (n : Z) (g : G)
    : outcome (list npfloat * G) :=
  uniform 0 2 n g.

(** [np.random.normal(0, 300, size=n)] *)
Definition sample_peculiar_velocity (self : tracer) (n : Z) (g : G)
    : outcome (list npfloat * G) :=
  normal 0 300 n g.

(** [10 ** np.random.normal(12, 0.5, size=n)] *)
Definition sample_halo_mass (self : tracer) (n : Z) (g : G)
    : outcome (list npfloat * G) :=
  '(log_mass, g) ← normal 12 0.5 n g;
  Returns (map ten_to_the log_mass, g).

End Samplers.

End Placeholders.

Module PlaceholderFacts.

Import Numpy Python Random Tracers Placeholders TracerFacts SamplingFacts.
Local Open Scope R_scope.

Section AnyGenerator.

Context {G : Type} `{RandomState G} `{NormalState G}.

Lemma uniform_returns (low high : R) (n : Z) (g : G) :
  low <= high -> (0 <= n)%Z ->
  exists (values : list npfloat) (g' : G),
    uniform low high n g = Returns (values, g') /\
    Z.of_nat (length values) = n /\
    Forall (fun x => exists r : R, x = Fin r /\ low <= r <= high) values.
Proof.
  intros Hlh Hn. unfold uniform.
  destruct (Z.ltb_spec n 0) as [Hneg | _]; [lia |].
  pose proof (draw_uniform_length low high (Z.to_nat n) g) as Hlen.
  pose proof (draw_uniform_range low high (Z.to_nat n) g Hlh) as Hrange.
  destruct (draw_uniform low high (Z.to_nat n) g) as [values g'].
  cbn [fst] in *. exists values, g'.
  split; [reflexivity |]. split; [lia | assumption].
Qed.

(** X6: for [n >= 0], [sample_absolute_magnitudes(n)] returns exactly
    [n] values, each between [-22] and [-18]. *)
Theorem sample_absolute_magnitudes_range (self : tracer) (n : Z) (g : G) :
  (0 <= n)%Z ->
  exists (values : list npfloat) (g' : G),
    sample_absolute_magnitudes self n g = Returns (values, g') /\
    Z.of_nat (length values) = n /\
    Forall (fun x => exists r : R, x = Fin r /\ -22 <= r <= -18) values.
Proof.
  intros Hn. unfold sample_absolute_magnitudes.
  apply uniform_returns; [lra | assumption].
Qed.

(** X7: for [n >= 0], [sample_colors(n)] returns exactly [n] values,
    each between [0] and [2]. *)
Theorem sample_colors_range (self : tracer) (n : Z) (g : G) :
  (0 <= n)%Z ->
  exists (values : list npfloat) (g' : G),
    sample_colors self n g = Returns (values, g') /\
    Z.of_nat (length values) = n /\
    Forall (fun x => exists r : R, x = Fin r /\ 0 <= r <= 2) values.
Proof.
  intros Hn. unfold sample_colors.
  apply uniform_returns; [lra | assumption].
Qed.

Lemma draw_normal_length (loc scale : R) (k : nat) (g : G) :
  length (draw_normal loc scale k g).1 = k.
Proof.
  revert g. induction k as [| k IH]; intros g; cbn; [reflexivity |].
  destruct (standard_normal g) as [x g1].
  specialize (IH g1). destruct (draw_normal loc scale k g1) as [rest g2].
  cbn in *. now rewrite IH.
Qed.

Lemma draw_normal_finite (loc scale : R) (k : nat) (g : G) :
  Forall (fun x => exists r : R, x = Fin r) (draw_normal loc scale k g).1.
Proof.
  revert g. induction k as [| k IH]; intros g; cbn; [constructor |].
  destruct (standard_normal g) as [x g1].
  specialize (IH g1). destruct (draw_normal loc scale k g1) as [rest g2].
  cbn in *. constructor; [eexists; reflexivity | exact IH].
Qed.

Lemma ten_to_the_pos (y : R) :
  exists m : R, ten_to_the (Fin y) = Fin m /\ 0 < m.
Proof.
  cbn [ten_to_the]. unfold np_power.
  destruct (Req_dec_T y 0); [exists 1; split; [reflexivity | lra] |].
  destruct (Rlt_dec 0 10); [| lra].
  exists (Rpower 10 y). split; [reflexivity | apply exp_pos].
Qed.

(** X8: for [n >= 0], [sample_halo_mass(n)] returns exactly [n] values,
    each finite and strictly positive. *)
Theorem sample_halo_mass_positive (self : tracer) (n : Z) (g : G) :
  (0 <= n)%Z ->
  exists (values : list npfloat) (g' : G),
    sample_halo_mass self n g = Returns (values, g') /\
    Z.of_nat (length values) = n /\
    Forall (fun x => exists m : R, x = Fin m /\ 0 < m) values.
Proof.
  intros Hn. unfold sample_halo_mass, normal.
  destruct (Rlt_dec 0.5 0); [lra |].
  destruct (Z.ltb_spec n 0) as [Hneg | _]; [lia |].
  pose proof (draw_normal_length 12 0.5 (Z.to_nat n) g) as Hlen.
  pose proof (draw_normal_finite 12 0.5 (Z.to_nat n) g) as Hfin.
  destruct (draw_normal 12 0.5 (Z.to_nat n) g) as [log_mass g'].
  cbn [fst mbind outcome_bind] in *.
  exists (map ten_to_the log_mass), g'.
  split; [reflexivity |]. split; [rewrite length_map; lia |].
  apply Forall_map. eapply Forall_impl; [exact Hfin |].
  intros x [y ->]. apply ten_to_the_pos.
Qed.

(** X9: with a negative [n], each of the four placeholder samplers
    raises ValueError. *)
Theorem placeholder_samplers_negative_count (self : tracer) (n : Z) (g : G) :
  (n < 0)%Z ->
  sample_absolute_magnitudes self n g = Raises ValueError /\
  sample_colors self n g = Raises ValueError /\
  sample_peculiar_velocity self n g = Raises ValueError /\
  sample_halo_mass self n g = Raises ValueError.
Proof.
  intros Hn.
  unfold sample_absolute_magnitudes, sample_colors,
    sample_peculiar_velocity, sample_halo_mass, uniform, normal.
  destruct (Z.ltb_spec n 0) as [_ | Hge]; [| lia].
  destruct (Rlt_dec 300 0); [lra |]. destruct (Rlt_dec 0.5 0); [lra |].
  repeat split; reflexivity.
Qed.

End AnyGenerator.

(** A normal source with the same state as the scripted generator: the
    [k]-th value is [k - 1]. *)
#[export] Instance scripted_normal : NormalState nat := {|
  standard_normal k := (INR k - 1, S k)
|}.

Lemma sample_absolute_magnitudes_range_witness :
  (0 <= 2)%Z /\
  exists (values : list npfloat) (g' : nat),
    sample_absolute_magnitudes ELG_instance 2 0%nat = Returns (values, g') /\
    Z.of_nat (length values) = 2%Z /\
    Forall (fun x => exists r : R, x = Fin r /\ -22 <= r <= -18) values.
Proof.
  split; [lia |].
  apply (sample_absolute_magnitudes_range ELG_instance 2 0%nat). lia.
Defined.

Lemma sample_colors_range_witness :
  (0 <= 2)%Z /\
  exists (values : list npfloat) (g' : nat),
    sample_colors QSO_instance 2 0%nat = Returns (values, g') /\
    Z.of_nat (length values) = 2%Z /\
    Forall (fun x => exists r : R, x = Fin r /\ 0 <= r <= 2) values.
Proof.
  split; [lia |].
  apply (sample_colors_range QSO_instance 2 0%nat). lia.
Defined.

Lemma sample_halo_mass_positive_witness :
  (0 <= 2)%Z /\
  exists (values : list npfloat) (g' : nat),
    sample_halo_mass LRG_instance 2 0%nat = Returns (values, g') /\
    Z.of_nat (length values) = 2%Z /\
    Forall (fun x => exists m : R, x = Fin m /\ 0 < m) values.
Proof.
  split; [lia |].
  apply (sample_halo_mass_positive LRG_instance 2 0%nat). lia.
Defined.

Lemma placeholder_samplers_negative_count_witness :
  (-1 < 0)%Z /\
  sample_absolute_magnitudes BGS_instance (-1) 0%nat = Raises ValueError /\
  sample_colors BGS_instance (-1) 0%nat = Raises ValueError /\
  sample_peculiar_velocity BGS_instance (-1) 0%nat = Raises ValueError /\
  sample_halo_mass BGS_instance (-1) 0%nat = Raises ValueError.
Proof.
  split; [lia |].
  apply (placeholder_samplers_negative_count BGS_instance (-1) 0%nat). lia.
Defined.

End PlaceholderFacts.

(** ** What [generate_redshifts] can return *)

Module SurveyShape.

Import Numpy Python Random Tracers Survey TracerFacts SamplingFacts
  SurveyFacts.

Section AnyGenerator.

Context {G : Type} `{RandomState G}.

(** The three values [np.random.randint(0, n + 1)] gives in turn. *)
Definition drawn_edges (n : Z) (g : G) : Z * Z * Z :=
  let '(edge_1, g1) := randint_draw 0 (n + 1) g in
  let '(edge_2, g2) := randint_draw 0 (n + 1) g1 in
  let '(edge_3, _) := randint_draw 0 (n + 1) g2 in
  (edge_1, edge_2, edge_3).

Lemma extend_if_positive_missing (v : variant) (fuel : nat) (count : Z)
    (redshifts : list npfloat) (g : G) :
  v = LRG \/ v = QSO ->
  (0 < count)%Z ->
  extend_if_positive fuel (instance_of v) count redshifts g =
  Raises (AttributeError "max_prob_estimate").
Proof.
  intros Hv Hcount. unfold extend_if_positive.
  destruct (Z.ltb_spec 0 count) as [_ | Hle]; [| lia].
  unfold sample_redshifts.
  now rewrite (max_prob_estimate_missing v Hv).
Qed.

Lemma extend_if_positive_domain (fuel : nat) (self : tracer) (count : Z)
    (redshifts res : list npfloat) (g g' : G) :
  Forall in_domain redshifts ->
  extend_if_positive fuel self count redshifts g = Returns (res, g') ->
  Forall in_domain res.
Proof.
  intros Hdom. unfold extend_if_positive.
  destruct (Z.ltb_spec 0 count) as [Hpos | Hle].
  - destruct (sample_redshifts fuel self count g) as [[samples g1] | |] eqn:Hrun;
      try discriminate.
    cbn [mbind outcome_bind]. intros [= <- <-].
    apply sample_redshifts_returns in Hrun as [_ Hs]; [| lia].
    apply Forall_app. now split.
  - now intros [= <- <-].
Qed.

(** X10: with a negative [n], [generate_redshifts(n)] raises ValueError:
    the first [randint(0, n + 1)] has an empty range. *)
Theorem generate_redshifts_negative (fuel : nat) (n : Z) (g : G) :
  (n < 0)%Z -> generate_redshifts fuel n g = Raises ValueError.
Proof.
  intros Hn. unfold generate_redshifts, randint.
  destruct (Z.leb_spec (n + 1) 0) as [_ | Hpos]; [reflexivity | lia].
Qed.

(** X11: [generate_redshifts(0)] returns the empty sequence, whatever
    the generator: the three edges are [0] and no tracer is sampled. *)
Theorem generate_redshifts_zero (fuel : nat) (g : G) :
  exists g' : G, generate_redshifts fuel 0 g = Returns ([], g').
Proof.
  unfold generate_redshifts, randint.
  change (0 + 1 <=? 0)%Z with false. cbn [mbind outcome_bind].
  pose proof (randint_draw_range 0 (0 + 1) g) as H1.
  destruct (randint_draw 0 (0 + 1) g) as [edge_1 g1]. cbn [fst] in H1.
  pose proof (randint_draw_range 0 (0 + 1) g1) as H2.
  destruct (randint_draw 0 (0 + 1) g1) as [edge_2 g2]. cbn [fst] in H2.
  pose proof (randint_draw_range 0 (0 + 1) g2) as H3.
  destruct (randint_draw 0 (0 + 1) g2) as [edge_3 g3]. cbn [fst] in H3.
  assert (edge_1 = 0%Z) as -> by lia.
  assert (edge_2 = 0%Z) as -> by lia.
  assert (edge_3 = 0%Z) as -> by lia.
  rewrite !new_instance_of. cbn [mbind outcome_bind].
  unfold extend_if_positive. change (0 <? 0 - 0)%Z with false.
  change (0 <? 0)%Z with false. cbn [mbind outcome_bind].
  now exists g3.
Qed.

(** X12: whenever [generate_redshifts(n)] returns, the first edge drawn
    was [0] and the third was not above the second (otherwise the LRG or
    the QSO tracer would have been sampled, which raises); the result
    then has exactly [n + (edge_2 - edge_3)] values, between [n] and
    [2 * n], all of them in [[0, 5]]. *)
Theorem generate_redshifts_returns_shape (fuel : nat) (n : Z) (g g' : G)
    (res : list npfloat) :
  generate_redshifts fuel n g = Returns (res, g') ->
  let '(edge_1, edge_2, edge_3) := drawn_edges n g in
  edge_1 = 0%Z /\ (edge_3 <= edge_2)%Z /\
  Z.of_nat (length res) = (n + (edge_2 - edge_3))%Z /\
  (n <= Z.of_nat (length res) <= 2 * n)%Z /\
  Forall in_domain res.
Proof.
  unfold generate_redshifts, randint, drawn_edges.
  destruct (Z.leb_spec (n + 1) 0) as [Hneg | Hpos]; [discriminate |].
  cbn [mbind outcome_bind].
  pose proof (randint_draw_range 0 (n + 1) g Hpos) as H1.
  destruct (randint_draw 0 (n + 1) g) as [edge_1 g1]. cbn [fst] in H1.
  pose proof (randint_draw_range 0 (n + 1) g1 Hpos) as H2.
  destruct (randint_draw 0 (n + 1) g1) as [edge_2 g2]. cbn [fst] in H2.
  pose proof (randint_draw_range 0 (n + 1) g2 Hpos) as H3.
  destruct (randint_draw 0 (n + 1) g2) as [edge_3 g3]. cbn [fst] in H3.
  rewrite !new_instance_of. cbn [mbind outcome_bind].
  destruct (Z.ltb_spec 0 edge_1) as [Hlrg | Hlrg].
  { rewrite (extend_if_positive_missing LRG) by auto. discriminate. }
  assert (edge_1 = 0%Z) as -> by lia.
  destruct (extend_if_positive fuel (instance_of LRG) 0 [] g3)
    as [[r1 h1] | |] eqn:E1; try discriminate.
  cbn [mbind outcome_bind].
  destruct (extend_if_positive fuel (instance_of ELG) (edge_2 - 0) r1 h1)
    as [[r2 h2] | |] eqn:E2; try discriminate.
  cbn [mbind outcome_bind].
  destruct (Z.ltb_spec 0 (edge_3 - edge_2)) as [Hqso | Hqso].
  { rewrite (extend_if_positive_missing QSO) by auto. discriminate. }
  destruct (extend_if_positive fuel (instance_of QSO) (edge_3 - edge_2) r2 h2)
    as [[r3 h3] | |] eqn:E3; try discriminate.
  cbn [mbind outcome_bind].
  destruct (extend_if_positive fuel (instance_of BGS) (n - edge_3) r3 h3)
    as [[r4 h4] | |] eqn:E4; try discriminate.
  cbn [mbind outcome_bind]. intros [= <- <-].
  assert (D0 : Forall in_domain []) by constructor.
  pose proof (extend_if_positive_domain _ _ _ _ _ _ _ D0 E1) as D1.
  pose proof (extend_if_positive_domain _ _ _ _ _ _ _ D1 E2) as D2.
  pose proof (extend_if_positive_domain _ _ _ _ _ _ _ D2 E3) as D3.
  pose proof (extend_if_positive_domain _ _ _ _ _ _ _ D3 E4) as D4.
  apply extend_if_positive_length in E1, E2, E3, E4.
  cbn [length] in E1.
  repeat split; try assumption; lia.
Qed.


End AnyGenerator.

(** The run of [generate_redshifts(1)] on the scripted generator: the
    edges are [0, 1, 0]. *)
Lemma scripted_generate_one :
  generate_redshifts 1 1 0%nat = Returns ([Fin 1; Fin 1], 15%nat).
Proof.
  unfold generate_redshifts, randint.
  change (1 + 1 <=? 0)%Z with false.
  cbn [mbind outcome_bind randint_draw scripted].
  change (script_int 0 (1 + 1) 0) with 0%Z.
  change (script_int 0 (1 + 1) 1) with 1%Z.
  change (script_int 0 (1 + 1) 2) with 0%Z.
  rewrite !new_instance_of. cbn [mbind outcome_bind].
  unfold extend_if_positive.
  change (0 <? 0)%Z with false.
  change (0 <? 1 - 0)%Z with true.
  change (0 <? 0 - 1)%Z with false.
  change (1 - 0)%Z with 1%Z.
  cbn [mbind outcome_bind].
  change (instance_of ELG) with ELG_instance.
  rewrite scripted_sample_ELG. cbn [mbind outcome_bind app].
  change (instance_of BGS) with BGS_instance.
  rewrite scripted_sample_BGS. reflexivity.
Qed.

Lemma generate_redshifts_negative_witness :
  (-1 < 0)%Z /\ generate_redshifts 5 (-1) 0%nat = Raises ValueError.
Proof.
  split; [lia |]. apply (generate_redshifts_negative 5 (-1) 0%nat). lia.
Defined.

Lemma generate_redshifts_returns_shape_witness :
  generate_redshifts 1 1 0%nat = Returns ([Fin 1; Fin 1], 15%nat) /\
  drawn_edges 1 0%nat = (0%Z, 1%Z, 0%Z) /\
  0%Z = 0%Z /\ (0 <= 1)%Z /\
  Z.of_nat (length [Fin 1; Fin 1]) = (1 + (1 - 0))%Z /\
  (1 <= Z.of_nat (length [Fin 1; Fin 1]) <= 2 * 1)%Z /\
  Forall in_domain [Fin 1; Fin 1].
Proof.
  split; [apply scripted_generate_one |]. split; [reflexivity |].
  exact (generate_redshifts_returns_shape 1 1 0%nat 15%nat [Fin 1; Fin 1]
           scripted_generate_one).
Defined.


End SurveyShape.

(** ** The expansion rate, the table and the distance modulus *)

Module CosmologyShape.

Import Numpy Python Cosmology CosmologyFacts.
Local Open Scope R_scope.

(** The instance dictionary as [__init__] has filled it when it makes
    its last call. *)
Definition parameters : gmap string pyval :=
  <["c" := VFloat 299792.458]>
    (<["Omega_lambda" := VFloat 0.6853]>
       (<["Omega_m" := VFloat 0.3147]>
          (<["H0" := VFloat (100 * 0.6737)]>
             (<["h" := VFloat 0.6737]> ∅)))).

(** Stand-ins for the two library routines, used to run the table
    builder: the integral estimate is the upper limit, and the fitted
    function is the identity. *)
Definition quad_stub (f : npfloat -> outcome npfloat) (a b : npfloat)
    : outcome (npfloat * npfloat) :=
  Returns (b, Fin 0).

Definition interp1d_stub (x y : list npfloat) (kind fill_value : string)
    (z : npfloat) : npfloat := z.














Lemma mapM_quad_total
    (quad : (npfloat -> outcome npfloat) -> npfloat -> npfloat ->
            outcome (npfloat * npfloat))
    (f : npfloat -> outcome npfloat) (grid : list npfloat) :
  Forall (fun z => exists r, quad f (Fin 0) z = Returns r) grid ->
  exists ds,
    mapM (fun z => '(integral, _) ← quad f (Fin 0) z; Returns integral) grid =
    Returns ds.
Proof.
  induction 1 as [| z grid [[d err] Hq] _ [ds IH]]; cbn [mapM].
  - now exists [].
  - rewrite Hq. cbn [mbind outcome_bind]. rewrite IH.
    cbn [mbind outcome_bind]. now exists (d :: ds).
Qed.

Section SciPy.

Variable quad :
  (npfloat -> outcome npfloat) -> npfloat -> npfloat -> outcome (npfloat * npfloat).
Variable interp1d :
  list npfloat -> list npfloat -> string -> string -> npfloat -> npfloat.


(** X18: if the integrator returns at each of the 1000 grid points,
    [_builds_lookups] returns. *)
Theorem builds_lookups_returns (self : gmap string pyval) :
  Forall (fun z => exists r, quad (integrand self) (Fin 0) z = Returns r)
    (linspace 0 5 1000) ->
  exists self' : gmap string pyval,
    _builds_lookups quad interp1d self = Returns self'.
Proof.
  intros Hall. unfold _builds_lookups.
  destruct (mapM_quad_total quad (integrand self) _ Hall) as [ds Hds].
  rewrite Hds. cbn [mbind outcome_bind]. eexists. reflexivity.
Qed.

End SciPy.





Lemma builds_lookups_returns_witness :
  Forall
    (fun z => exists r, quad_stub (integrand parameters) (Fin 0) z = Returns r)
    (linspace 0 5 1000) /\
  exists self' : gmap string pyval,
    _builds_lookups quad_stub interp1d_stub parameters = Returns self'.
Proof.
  assert (Hall : Forall
            (fun z => exists r,
               quad_stub (integrand parameters) (Fin 0) z = Returns r)
            (linspace 0 5 1000)).
  { apply Forall_forall. intros z _. eexists. reflexivity. }
  split; [exact Hall |].
  apply (builds_lookups_returns quad_stub interp1d_stub parameters Hall).
Defined.

(** X19: without the attribute [comoving_distance_lookup] (the state in
    which [__init__] leaves the instance), each of the three distance
    queries raises AttributeError. *)
Theorem distance_queries_without_table (self : gmap string pyval)
    (z : npfloat) :
  self !! "comoving_distance_lookup" = None ->
  comoving_distance self z =
    Raises (AttributeError "comoving_distance_lookup") /\
  luminosity_distance self z =
    Raises (AttributeError "comoving_distance_lookup") /\
  distance_modulus self z =
    Raises (AttributeError "comoving_distance_lookup").
Proof.
  intros Hnone.
  assert (Hc : comoving_distance self z =
               Raises (AttributeError "comoving_distance_lookup")).
  { unfold comoving_distance, attr, getattr. now rewrite Hnone. }
  unfold distance_modulus, luminosity_distance. rewrite Hc. auto.
Qed.

Lemma distance_queries_without_table_witness :
  parameters !! "comoving_distance_lookup" = None /\
  comoving_distance parameters (Fin 1) =
    Raises (AttributeError "comoving_distance_lookup") /\
  luminosity_distance parameters (Fin 1) =
    Raises (AttributeError "comoving_distance_lookup") /\
  distance_modulus parameters (Fin 1) =
    Raises (AttributeError "comoving_distance_lookup").
Proof.
  split; [reflexivity |].
  apply (distance_queries_without_table parameters (Fin 1)). reflexivity.
Defined.

(** X20: [distance_modulus(z)] raises an exception exactly when
    [comoving_distance(z)] raises it; the arithmetic on top (the factor
    [1 + z], the logarithm) adds no exception of its own. *)
Theorem distance_modulus_raises_iff (self : gmap string pyval) (z : npfloat)
    (e : exn) :
  distance_modulus self z = Raises e <-> comoving_distance self z = Raises e.
Proof.
  unfold distance_modulus, luminosity_distance.
  destruct (comoving_distance self z) as [d | e' |]; cbn [mbind outcome_bind];
    split; intros Heq; (discriminate || exact Heq).
Qed.






End CosmologyShape.
